(** * Auto-analyze priority queue: the non-partitioned table analysis job

    A shallow embedding of
    [pkg/statistics/handle/autoanalyze/priorityqueue/non_partitioned_table_analysis_job.go]
    and the properties of its execution protocol.

    The job is a Go struct reached through a pointer receiver, so the methods
    that have effects run in a small state monad whose store holds the job,
    the state of the collaborators (session pool, executor, eligibility check,
    hook bodies) and a log of the calls made to them.  Go run-time panics
    (calling a nil func value, indexing a slice out of range) are an explicit
    outcome of the monad, and [defer] runs its function on both outcomes. *)

From Stdlib Require Import ZArith String Ascii List Bool Lia DecimalString.
From Stdlib Require Import Floats.PrimFloat.
Import ListNotations.

Open Scope string_scope.
Open Scope list_scope.

(** ** Data model *)

(** Go's [float64] and [time.Duration] (an [int64] count of nanoseconds).
    No arithmetic is done on either in this file: they are stored and
    returned. *)
Definition float64 := PrimFloat.float.
Definition Duration := Z.

(** A [JobHook] is a Go func value: [nil], or a reference to some code.  The
    code a reference stands for belongs to the scheduler (see
    [Collaborators]). *)
Definition HookRef := nat.
Definition JobHook := option HookRef.

Definition is_nil (h : JobHook) : bool :=
  match h with
  | None => true
  | Some _ => false
  end.

(** [type analyzeType string] and its two constants. *)
Definition analyzeType := string.
Definition analyzeTable : analyzeType := "analyzeTable".
Definition analyzeIndex : analyzeType := "analyzeIndex".

Record Indicators := mkIndicators {
  ChangePercentage : float64;
  TableSize : float64;
  LastAnalysisDuration : Duration
}.

(** The struct embeds [Indicators]; the embedded field is [JobIndicators]
    here, since a Rocq record cannot have a field named like its type. *)
Record NonPartitionedTableAnalysisJob := mkJob {
  successHook : JobHook;
  failureHook : JobHook;
  TableSchema : string;
  TableName : string;
  Indexes : list string;
  JobIndicators : Indicators;
  TableID : Z;
  TableStatsVer : Z;
  Weight : float64
}.

Definition Job := NonPartitionedTableAnalysisJob.

(** The composite literal of the constructor names six fields; the hooks and
    the weight keep their zero values. *)
Definition NewNonPartitionedTableAnalysisJob
    (schema tableName : string) (tableID : Z) (indexes : list string)
    (tableStatsVer : Z) (changePercentage tableSize : float64)
    (lastAnalysisDuration : Duration) : Job :=
  {| successHook := None;
     failureHook := None;
     TableSchema := schema;
     TableName := tableName;
     Indexes := indexes;
     JobIndicators := {| ChangePercentage := changePercentage;
                         TableSize := tableSize;
                         LastAnalysisDuration := lastAnalysisDuration |};
     TableID := tableID;
     TableStatsVer := tableStatsVer;
     Weight := 0%float |}.

(** ** Accessors and setters

    The setters assign one field through the pointer; here they return the
    updated struct. *)

Definition GetTableID (j : Job) : Z := TableID j.

Definition RegisterSuccessHook (hook : JobHook) (j : Job) : Job :=
  {| successHook := hook;
     failureHook := failureHook j;
     TableSchema := TableSchema j;
     TableName := TableName j;
     Indexes := Indexes j;
     JobIndicators := JobIndicators j;
     TableID := TableID j;
     TableStatsVer := TableStatsVer j;
     Weight := Weight j |}.

Definition RegisterFailureHook (hook : JobHook) (j : Job) : Job :=
  {| successHook := successHook j;
     failureHook := hook;
     TableSchema := TableSchema j;
     TableName := TableName j;
     Indexes := Indexes j;
     JobIndicators := JobIndicators j;
     TableID := TableID j;
     TableStatsVer := TableStatsVer j;
     Weight := Weight j |}.

(** [len(j.Indexes) > 0] *)
Definition HasNewlyAddedIndex (j : Job) : bool :=
  (Z.of_nat (length (Indexes j)) >? 0)%Z.

Definition SetWeight (weight : float64) (j : Job) : Job :=
  {| successHook := successHook j;
     failureHook := failureHook j;
     TableSchema := TableSchema j;
     TableName := TableName j;
     Indexes := Indexes j;
     JobIndicators := JobIndicators j;
     TableID := TableID j;
     TableStatsVer := TableStatsVer j;
     Weight := weight |}.

Definition GetWeight (j : Job) : float64 := Weight j.

Definition GetIndicators (j : Job) : Indicators := JobIndicators j.

Definition SetIndicators (indicators : Indicators) (j : Job) : Job :=
  {| successHook := successHook j;
     failureHook := failureHook j;
     TableSchema := TableSchema j;
     TableName := TableName j;
     Indexes := Indexes j;
     JobIndicators := indicators;
     TableID := TableID j;
     TableStatsVer := TableStatsVer j;
     Weight := Weight j |}.

Definition getAnalyzeType (j : Job) : analyzeType :=
  if HasNewlyAddedIndex j then analyzeIndex else analyzeTable.

(** ** SQL generation

    The parameters are a [[]any] that only ever holds strings. *)

Definition GenSQLForAnalyzeTable (j : Job) : string * list string :=
  let sql := "analyze table %n.%n" in
  let params := [TableSchema j; TableName j] in
  (sql, params).

Definition GenSQLForAnalyzeIndex (j : Job) (index : string)
  : string * list string :=
  let sql := "analyze table %n.%n index %n" in
  let params := [TableSchema j; TableName j; index] in
  (sql, params).

(** Modelled from the spec: the identifier placeholders of a template.  The
    format language of the executor is not part of the job's file; [%n] is
    the placeholder of an identifier that the executor escapes when it binds
    the parameters.  The scan reads a format specifier as [%] and the
    character after it, and counts the specifiers [%n]. *)
Fixpoint count_ident_placeholders (s : string) : nat :=
  match s with
  | EmptyString => 0
  | String c rest =>
      if Ascii.eqb c "%"%char then
        match rest with
        | EmptyString => 0
        | String d rest' =>
            (if Ascii.eqb d "n"%char then 1 else 0)
            + count_ident_placeholders rest'
        end
      else count_ident_placeholders rest
  end.

(** ** Diagnostic rendering *)

Definition LF : string := String (ascii_of_nat 10) "".
Definition TAB : string := String (ascii_of_nat 9) "".

(** [%d] of an integer: its decimal digits, after a minus sign when it is
    negative. *)
Definition format_d (z : Z) : string := NilZero.string_of_int (Z.to_int z).

Section Rendering.

(** Two renderings of Go's library are taken as they come: [%.Nf] of a
    [float64] for a number [N] of decimals, and [%v] of a [time.Duration]
    (its [String] method). *)
Variable format_f : nat -> float64 -> string.
Variable format_duration : Duration -> string.

(** The [String] method: [fmt.Sprintf] of the ten-line format, verb by
    verb. *)
Definition JobString (j : Job) : string :=
  ("NonPartitionedTableAnalysisJob:" ++ LF ++
   TAB ++ "AnalyzeType: " ++ getAnalyzeType j ++ LF ++
   TAB ++ "Indexes: " ++ String.concat ", " (Indexes j) ++ LF ++
   TAB ++ "Schema: " ++ TableSchema j ++ LF ++
   TAB ++ "Table: " ++ TableName j ++ LF ++
   TAB ++ "TableID: " ++ format_d (TableID j) ++ LF ++
   TAB ++ "TableStatsVer: " ++ format_d (TableStatsVer j) ++ LF ++
   TAB ++ "ChangePercentage: " ++
     format_f 6 (ChangePercentage (JobIndicators j)) ++ LF ++
   TAB ++ "TableSize: " ++ format_f 2 (TableSize (JobIndicators j)) ++ LF ++
   TAB ++ "LastAnalysisDuration: " ++
     format_duration (LastAnalysisDuration (JobIndicators j)) ++ LF ++
   TAB ++ "Weight: " ++ format_f 6 (Weight j) ++ LF)%string.

End Rendering.

(** ** Collaborators

    Everything the job calls that lives outside of its file: the session
    pool behind [statsHandle.SPool()], the session variable it reads,
    [exec.AutoAnalyze], the package's [isValidToAnalyze] and the code of the
    registered hooks.  They own a state of their own ([Ext]), may depend on
    it and may change it; a hook is handed the job pointer, so it may also
    change the job.  All of them return to their caller. *)
Class Collaborators := {
  Ext : Type;
  SessionCtx : Type;
  SessionPool : Type;
  StatsHandle : Type;
  Tracker : Type;
  SPool : StatsHandle -> SessionPool;
  (** acquiring a session: an error, or the session *)
  pool_Get : SessionPool -> Ext -> (string + SessionCtx) * Ext;
  pool_Put : SessionPool -> SessionCtx -> Ext -> Ext;
  (** [sctx.GetSessionVars().AnalyzeVersion] *)
  AnalyzeVersion : SessionCtx -> Ext -> Z;
  exec_AutoAnalyze :
    SessionCtx -> StatsHandle -> Tracker -> Z -> string -> list string ->
    Ext -> bool * Ext;
  isValidToAnalyze : SessionCtx -> string -> string -> Ext -> (bool * string) * Ext;
  hook_code : HookRef -> Job -> Ext -> Job * Ext
}.

(** What the job did to its collaborators, oldest call first: a statement
    handed to the executor together with the executor's answer, or a hook
    called. *)
Inductive Event :=
| EvAutoAnalyze (statsVer : Z) (sql : string) (params : list string) (ok : bool)
| EvHook (h : HookRef).

(** Go's [error]: [nil] or an error value. *)
Definition error := option string.

Inductive PanicKind :=
| NilFuncCall
| IndexOutOfRange.

Inductive Res (A : Type) :=
| Ok (a : A)
| Panic (p : PanicKind).

Arguments Ok {A} a.
Arguments Panic {A} p.

Definition is_panic {A : Type} (r : Res A) : bool :=
  match r with
  | Ok _ => false
  | Panic _ => true
  end.

Definition hooks_fired (evs : list Event) : list HookRef :=
  flat_map (fun e => match e with EvHook h => [h] | _ => [] end) evs.

Definition statements (evs : list Event) : list (string * list string) :=
  flat_map (fun e => match e with
                     | EvAutoAnalyze _ sql params _ => [(sql, params)]
                     | _ => []
                     end) evs.

(** The callback held by a hook field, as the list of calls that firing the
    field makes. *)
Definition registered (h : JobHook) : list HookRef :=
  match h with
  | Some r => [r]
  | None => []
  end.

Section Execution.
Context {C : Collaborators}.

(** ** The store

    [local_success] is the local variable [success] of [Analyze]: both
    closures of [Analyze] capture it, so it outlives the statement that
    declares it. *)
Record World := mkWorld {
  w_job : Job;
  local_success : bool;
  w_ext : Ext;
  w_trace : list Event
}.

Definition M (A : Type) : Type := World -> Res A * World.

Definition ret {A : Type} (a : A) : M A := fun w => (Ok a, w).

Definition bind {A B : Type} (m : M A) (k : A -> M B) : M B :=
  fun w =>
    match m w with
    | (Ok a, w1) => k a w1
    | (Panic p, w1) => (Panic p, w1)
    end.

Definition panic {A : Type} (p : PanicKind) : M A := fun w => (Panic p, w).

(** [defer deferred body]: the deferred function runs when the body is
    left, whether it returned or panicked; the body's outcome stands unless
    the deferred function panics itself. *)
Definition defer {A : Type} (deferred : M unit) (body : M A) : M A :=
  fun w =>
    let (r, w1) := body w in
    match deferred w1 with
    | (Ok _, w2) => (r, w2)
    | (Panic p, w2) => (Panic p, w2)
    end.

Definition get_job : M Job := fun w => (Ok (w_job w), w).

Definition get_success : M bool := fun w => (Ok (local_success w), w).

Definition set_success (b : bool) : M unit :=
  fun w => (Ok tt, {| w_job := w_job w; local_success := b;
                      w_ext := w_ext w; w_trace := w_trace w |}).

Definition log (e : Event) (w : World) (x : Ext) : World :=
  {| w_job := w_job w; local_success := local_success w;
     w_ext := x; w_trace := w_trace w ++ [e] |}.

(** The events logged between two stores. *)
Definition events_since (w w' : World) : list Event :=
  skipn (length (w_trace w)) (w_trace w').
End Execution.

Declare Scope go_scope.
Delimit Scope go_scope with go.
Notation "x <- m ;; k" := (bind m (fun x => k))
  (at level 61, m at next level, right associativity) : go_scope.
Notation "m ;;; k" := (bind m (fun _ => k))
  (at level 61, right associativity) : go_scope.
Open Scope go_scope.

Section Methods.
Context {C : Collaborators}.

(** [h(j)] for a func value [h]: calling [nil] panics. *)
Definition call_JobHook (h : JobHook) : M unit :=
  match h with
  | None => panic NilFuncCall
  | Some r =>
      fun w =>
        let (j', x') := hook_code r (w_job w) (w_ext w) in
        (Ok tt, {| w_job := j'; local_success := local_success w;
                   w_ext := x'; w_trace := w_trace w ++ [EvHook r] |})
  end.

(** [s[i]] for a slice [s]: out of range panics. *)
Definition index_slice (s : list string) (i : nat) : M string :=
  match nth_error s i with
  | Some x => ret x
  | None => panic IndexOutOfRange
  end.

Definition get_AnalyzeVersion (sctx : SessionCtx) : M Z :=
  fun w => (Ok (AnalyzeVersion sctx (w_ext w)), w).

Definition AutoAnalyze (sctx : SessionCtx) (statsHandle : StatsHandle)
    (sysProcTracker : Tracker) (statsVer : Z) (sql : string)
    (params : list string) : M bool :=
  fun w =>
    let (ok, x') :=
      exec_AutoAnalyze sctx statsHandle sysProcTracker statsVer sql params
        (w_ext w) in
    (Ok ok, log (EvAutoAnalyze statsVer sql params ok) w x').

Definition check_isValidToAnalyze (sctx : SessionCtx) (schema table : string)
  : M (bool * string) :=
  fun w =>
    let (r, x') := isValidToAnalyze sctx schema table (w_ext w) in
    (Ok r, {| w_job := w_job w; local_success := local_success w;
              w_ext := x'; w_trace := w_trace w |}).

Definition pool_get (pool : SessionPool) : M (string + SessionCtx) :=
  fun w =>
    let (r, x') := pool_Get pool (w_ext w) in
    (Ok r, {| w_job := w_job w; local_success := local_success w;
              w_ext := x'; w_trace := w_trace w |}).

Definition pool_put (pool : SessionPool) (sctx : SessionCtx) : M unit :=
  fun w =>
    (Ok tt, {| w_job := w_job w; local_success := local_success w;
               w_ext := pool_Put pool sctx (w_ext w); w_trace := w_trace w |}).

(** Modelled from the spec: [statsutil.CallWithSCtx], which is not part of
    the job's file.  It acquires a session from the pool; when the pool
    rejects the request that error is returned and the function is not
    called; otherwise the function runs with the session, the session is
    released on every way out, and the function's error is returned. *)
Definition CallWithSCtx (pool : SessionPool) (f : SessionCtx -> M error)
  : M error :=
  r <- pool_get pool ;;
  match r with
  | inl err => ret (Some err)
  | inr sctx => defer (pool_put pool sctx) (f sctx)
  end.

Definition analyzeTableM (sctx : SessionCtx) (statsHandle : StatsHandle)
    (sysProcTracker : Tracker) : M bool :=
  j <- get_job ;;
  let (sql, params) := GenSQLForAnalyzeTable j in
  AutoAnalyze sctx statsHandle sysProcTracker (TableStatsVer j) sql params.

(** The [for _, index := range j.Indexes] loop of the version 1 branch,
    over the indexes still to visit. *)
Fixpoint analyzeIndexes_range (sctx : SessionCtx) (statsHandle : StatsHandle)
    (sysProcTracker : Tracker) (indexes : list string) : M bool :=
  match indexes with
  | [] => ret true
  | index :: rest =>
      j <- get_job ;;
      let (sql, params) := GenSQLForAnalyzeIndex j index in
      ok <- AutoAnalyze sctx statsHandle sysProcTracker (TableStatsVer j)
              sql params ;;
      if negb ok then ret false
      else analyzeIndexes_range sctx statsHandle sysProcTracker rest
  end.

Definition analyzeIndexes (sctx : SessionCtx) (statsHandle : StatsHandle)
    (sysProcTracker : Tracker) : M bool :=
  j <- get_job ;;
  if (Z.of_nat (length (Indexes j)) =? 0)%Z then ret true
  else
    analyzeVersion <- get_AnalyzeVersion sctx ;;
    if (analyzeVersion =? 1)%Z then
      analyzeIndexes_range sctx statsHandle sysProcTracker (Indexes j)
    else
      firstIndex <- index_slice (Indexes j) 0 ;;
      let (sql, params) := GenSQLForAnalyzeIndex j firstIndex in
      AutoAnalyze sctx statsHandle sysProcTracker (TableStatsVer j) sql params.

(** The function literal handed to [CallWithSCtx]. *)
Definition Analyze_callback (statsHandle : StatsHandle)
    (sysProcTracker : Tracker) (sctx : SessionCtx) : M error :=
  j <- get_job ;;
  (if String.eqb (getAnalyzeType j) analyzeTable then
     ok <- analyzeTableM sctx statsHandle sysProcTracker ;;
     set_success ok
   else if String.eqb (getAnalyzeType j) analyzeIndex then
     ok <- analyzeIndexes sctx statsHandle sysProcTracker ;;
     set_success ok
   else ret tt) ;;;
  ret None.

(** The deferred function literal. *)
Definition Analyze_deferred : M unit :=
  success <- get_success ;;
  j <- get_job ;;
  if success then
    if negb (is_nil (successHook j)) then call_JobHook (successHook j)
    else ret tt
  else
    if negb (is_nil (failureHook j)) then call_JobHook (failureHook j)
    else ret tt.

Definition Analyze (statsHandle : StatsHandle) (sysProcTracker : Tracker)
  : M error :=
  set_success true ;;;
  defer Analyze_deferred
    (CallWithSCtx (SPool statsHandle)
       (Analyze_callback statsHandle sysProcTracker)).

Definition IsValidToAnalyze (sctx : SessionCtx) : M (bool * string) :=
  j <- get_job ;;
  r <- check_isValidToAnalyze sctx (TableSchema j) (TableName j) ;;
  let (valid, failReason) := r in
  if negb valid then
    j <- get_job ;;
    (if negb (is_nil (failureHook j)) then call_JobHook (failureHook j)
     else ret tt) ;;;
    ret (false, failReason)
  else ret (true, "").

End Methods.

(** ** Observing a run *)

(** The log entry of the analyze-index statement of one index. *)
Definition index_event (j : Job) (ok : bool) (index : string) : Event :=
  EvAutoAnalyze (TableStatsVer j)
    (fst (GenSQLForAnalyzeIndex j index))
    (snd (GenSQLForAnalyzeIndex j index)) ok.

(** The log entry of the analyze-table statement. *)
Definition table_event (j : Job) (ok : bool) : Event :=
  EvAutoAnalyze (TableStatsVer j)
    (fst (GenSQLForAnalyzeTable j))
    (snd (GenSQLForAnalyzeTable j)) ok.

(** Whether every statement of a log succeeded. *)
Definition all_ok (evs : list Event) : bool :=
  forallb (fun e => match e with
                    | EvAutoAnalyze _ _ _ ok => ok
                    | EvHook _ => true
                    end) evs.

Section Observations.
Context {C : Collaborators}.

(** [w'] is [w] after calls to the executor only: the job and the flag are
    those of [w], and the log grew by [evs]. *)
Definition extends (w w' : World) (evs : list Event) : Prop :=
  w_job w' = w_job w /\
  local_success w' = local_success w /\
  w_trace w' = w_trace w ++ evs.

(** The hook field that the deferred function of [Analyze] reads for a
    value of the flag. *)
Definition selected_hook (success : bool) (j : Job) : JobHook :=
  if success then successHook j else failureHook j.

(** The executor's answer to the analyze-index statement of one index of a
    job, asked in a state, with the state it leaves. *)
Definition exec_index (j : Job) (sctx : SessionCtx) (statsHandle : StatsHandle)
    (sysProcTracker : Tracker) (index : string) (x : Ext) : bool * Ext :=
  exec_AutoAnalyze sctx statsHandle sysProcTracker (TableStatsVer j)
    (fst (GenSQLForAnalyzeIndex j index))
    (snd (GenSQLForAnalyzeIndex j index)) x.

(** The state of the executor after it was given the statements of some
    indexes one after the other. *)
Fixpoint ext_after_indexes (j : Job) (sctx : SessionCtx)
    (statsHandle : StatsHandle) (sysProcTracker : Tracker)
    (indexes : list string) (x : Ext) : Ext :=
  match indexes with
  | [] => x
  | index :: rest =>
      ext_after_indexes j sctx statsHandle sysProcTracker rest
        (snd (exec_index j sctx statsHandle sysProcTracker index x))
  end.

(** The error [Analyze] gets from acquiring a session in a store. *)
Definition acquisition_error (statsHandle : StatsHandle) (w : World) : error :=
  match fst (pool_Get (SPool statsHandle) (w_ext w)) with
  | inl err => Some err
  | inr _ => None
  end.

End Observations.

(** ** A concrete set of collaborators

    Used to run the methods on explicit inputs.  A session is its analyze
    version; a stats handle is its pool, which is exhausted ([None]) or hands
    out sessions of one version; the executor fails every statement that has
    the parameter [idx_b], and counts the statements it was given; the
    eligibility check rejects the table [t_failed_recently]; a hook adds its
    reference to the counter and leaves the job alone. *)
Module Demo.

Definition collaborators : Collaborators :=
  {| Ext := nat;
     SessionCtx := Z;
     SessionPool := option Z;
     StatsHandle := option Z;
     Tracker := unit;
     SPool := fun h => h;
     pool_Get := fun pool x =>
       match pool with
       | None => (inl "no session available", x)
       | Some v => (inr v, x)
       end;
     pool_Put := fun _ _ x => x;
     AnalyzeVersion := fun sctx _ => sctx;
     exec_AutoAnalyze := fun _ _ _ _ _ params x =>
       (negb (existsb (String.eqb "idx_b") params), S x);
     isValidToAnalyze := fun _ _ table x =>
       if String.eqb table "t_failed_recently"
       then ((false, "last failed analysis is too recent"), x)
       else ((true, ""), x);
     hook_code := fun r j x => (j, r + x) |}.

Definition job (indexes : list string) : Job :=
  NewNonPartitionedTableAnalysisJob "test" "t" 42%Z indexes 2%Z
    0.5%float 1000%float 3000000000%Z.

Definition start (j : Job) : @World collaborators :=
  @mkWorld collaborators j false 0%nat [].

(** A job with both hooks registered: 7 on success, 9 on failure. *)
Definition hooked (indexes : list string) : Job :=
  RegisterFailureHook (Some 9) (RegisterSuccessHook (Some 7) (job indexes)).

Definition abc : list string := ["idx_a"; "idx_b"; "idx_c"].

(** A job on the table that the eligibility check rejects, as the
    constructor returns it (no hook registered). *)
Definition rejected : Job :=
  NewNonPartitionedTableAnalysisJob "test" "t_failed_recently" 43%Z [] 2%Z
    0.75%float 10%float 0%Z.

(** A pool of version 1 sessions, one of version 2 sessions, and an
    exhausted pool. *)
Definition pool_v1 : @StatsHandle collaborators := Some 1%Z.
Definition pool_v2 : @StatsHandle collaborators := Some 2%Z.
Definition no_pool : @StatsHandle collaborators := None.
Definition sctx_v1 : @SessionCtx collaborators := 1%Z.
Definition sctx_v2 : @SessionCtx collaborators := 2%Z.

(** Sessions whose analyze version is 0, and a pool of them. *)
Definition pool_v0 : @StatsHandle collaborators := Some 0%Z.
Definition sctx_v0 : @SessionCtx collaborators := 0%Z.

(** A job that the eligibility check rejects and whose only index is the
    one the executor fails, with a failure hook registered. *)
Definition rejected_and_failing : Job :=
  RegisterFailureHook (Some 9)
    (NewNonPartitionedTableAnalysisJob "test" "t_failed_recently" 44%Z
       ["idx_b"] 2%Z 0.25%float 10%float 0%Z).

(** Stand-ins for the two renderings of Go's library. *)
Definition format_f (decimals : nat) (x : float64) : string := "<float>".
Definition format_duration (d : Duration) : string := "<duration>".

End Demo.


(** * Properties *)

Section Properties.
Context {C : Collaborators}.

(** ** The log *)

Lemma events_since_app (w w' : World) (evs : list Event) :
  w_trace w' = w_trace w ++ evs -> events_since w w' = evs.
Proof.
  intros H. unfold events_since. rewrite H, skipn_app, skipn_all.
  now rewrite Nat.sub_diag.
Qed.

Lemma extends_refl (w : World) : extends w w [].
Proof. unfold extends. now rewrite app_nil_r. Qed.

Lemma extends_trans (w1 w2 w3 : World) (e1 e2 : list Event) :
  extends w1 w2 e1 -> extends w2 w3 e2 -> extends w1 w3 (e1 ++ e2).
Proof.
  intros (J1 & S1 & T1) (J2 & S2 & T2). unfold extends.
  rewrite J2, S2, T2, T1, app_assoc. auto.
Qed.

Lemma hooks_fired_app (e1 e2 : list Event) :
  hooks_fired (e1 ++ e2) = hooks_fired e1 ++ hooks_fired e2.
Proof. unfold hooks_fired. apply flat_map_app. Qed.

Lemma statements_app (e1 e2 : list Event) :
  statements (e1 ++ e2) = statements e1 ++ statements e2.
Proof. unfold statements. apply flat_map_app. Qed.

Lemma all_ok_app (e1 e2 : list Event) :
  all_ok (e1 ++ e2) = all_ok e1 && all_ok e2.
Proof. unfold all_ok. apply forallb_app. Qed.

Lemma hooks_fired_index_events (j : Job) (ok : bool) (l : list string) :
  hooks_fired (map (index_event j ok) l) = [].
Proof. unfold hooks_fired. induction l; simpl; auto. Qed.

Lemma hooks_fired_hook_events (l : list HookRef) :
  hooks_fired (map EvHook l) = l.
Proof.
  unfold hooks_fired. induction l as [|h l IH]; simpl; [reflexivity|].
  now rewrite IH.
Qed.

Lemma statements_index_events (j : Job) (ok : bool) (l : list string) :
  statements (map (index_event j ok) l) = map (GenSQLForAnalyzeIndex j) l.
Proof.
  unfold statements. induction l as [|i l IH]; simpl; [reflexivity|].
  now rewrite IH.
Qed.

Lemma all_ok_passed (j : Job) (l : list string) :
  all_ok (map (index_event j true) l) = true.
Proof. unfold all_ok. induction l; simpl; auto. Qed.

(** ** Run-time panics

    The two operations that the guards of the source protect do panic when
    they are reached unguarded. *)

Lemma call_JobHook_nil_panics (w : World) :
  call_JobHook None w = (Panic NilFuncCall, w).
Proof. reflexivity. Qed.

Lemma index_slice_empty_panics (i : nat) (w : World) :
  index_slice [] i w = (Panic IndexOutOfRange, w).
Proof. now destruct i. Qed.

Lemma defer_runs_after_panic (p : PanicKind) (w : World) :
  defer (set_success false) (panic (A := unit) p) w =
    (Panic p, snd (set_success false w)).
Proof. reflexivity. Qed.

(** ** The executor *)

Lemma AutoAnalyze_run (sctx : SessionCtx) (sh : StatsHandle) (tr : Tracker)
    (ver : Z) (sql : string) (params : list string) (w : World) :
  exists ok w',
    AutoAnalyze sctx sh tr ver sql params w = (Ok ok, w') /\
    ok = fst (exec_AutoAnalyze sctx sh tr ver sql params (w_ext w)) /\
    extends w w' [EvAutoAnalyze ver sql params ok].
Proof.
  unfold AutoAnalyze.
  destruct (exec_AutoAnalyze sctx sh tr ver sql params (w_ext w)) as [ok x'].
  exists ok, (log (EvAutoAnalyze ver sql params ok) w x').
  repeat split.
Qed.

(** ** The version 1 loop *)

Lemma analyzeIndexes_range_run (sctx : SessionCtx) (sh : StatsHandle)
    (tr : Tracker) (indexes : list string) :
  forall w : World,
  exists (ok : bool) (passed failed skipped : list string) (w' : World),
    analyzeIndexes_range sctx sh tr indexes w = (Ok ok, w') /\
    indexes = passed ++ failed ++ skipped /\
    extends w w' (map (index_event (w_job w) true) passed ++
                  map (index_event (w_job w) false) failed) /\
    (ok = true -> failed = [] /\ skipped = []) /\
    (ok = false -> length failed = 1).
Proof.
  induction indexes as [|index rest IH]; intros w.
  - exists true, [], [], [], w. simpl.
    split; [reflexivity|]. split; [reflexivity|].
    split; [apply extends_refl|]. split; [auto | discriminate].
  - simpl. unfold bind at 1. unfold get_job at 1.
    destruct (AutoAnalyze_run sctx sh tr (TableStatsVer (w_job w))
                "analyze table %n.%n index %n"
                [TableSchema (w_job w); TableName (w_job w); index] w)
      as (ok & w1 & Hrun & _ & Hext).
    unfold bind. rewrite Hrun. destruct ok; simpl.
    + destruct (IH w1) as (ok & passed & failed & skipped & w' & Hr & Hl & He & Ht & Hf).
      assert (Hj : w_job w1 = w_job w) by apply Hext.
      rewrite Hj in He.
      exists ok, (index :: passed), failed, skipped, w'.
      split; [exact Hr|]. split; [now rewrite Hl|].
      split; [apply (extends_trans _ _ _ _ _ Hext He) | auto].
    + exists false, [], [index], rest, w1.
      split; [reflexivity|]. split; [reflexivity|].
      split; [exact Hext|]. split; [discriminate | reflexivity].
Qed.

(** The loop against the executor: every index that passed was answered
    true by the executor in the state its predecessors left, the index that
    failed was answered false in the state the passed ones left, and the
    executor is left in the state after the statements attempted. *)
Lemma analyzeIndexes_range_answers (sctx : SessionCtx) (sh : StatsHandle)
    (tr : Tracker) (indexes : list string) :
  forall w : World,
  exists (ok : bool) (passed failed skipped : list string) (w' : World),
    analyzeIndexes_range sctx sh tr indexes w = (Ok ok, w') /\
    indexes = passed ++ failed ++ skipped /\
    extends w w' (map (index_event (w_job w) true) passed ++
                  map (index_event (w_job w) false) failed) /\
    (ok = true -> failed = [] /\ skipped = []) /\
    (ok = false -> length failed = 1) /\
    (forall (pre : list string) (i : string) (post : list string),
       passed = pre ++ i :: post ->
       fst (exec_index (w_job w) sctx sh tr i
              (ext_after_indexes (w_job w) sctx sh tr pre (w_ext w))) = true) /\
    (forall i : string,
       In i failed ->
       fst (exec_index (w_job w) sctx sh tr i
              (ext_after_indexes (w_job w) sctx sh tr passed (w_ext w))) = false) /\
    w_ext w' =
      ext_after_indexes (w_job w) sctx sh tr (passed ++ failed) (w_ext w).
Proof.
  induction indexes as [|index rest IH]; intros w.
  - exists true, [], [], [], w. simpl.
    split; [reflexivity|]. split; [reflexivity|].
    split; [apply extends_refl|]. split; [auto|]. split; [discriminate|].
    split; [intros [|? ?] ? ? H; discriminate H|].
    split; [intros i []|reflexivity].
  - simpl. unfold bind, get_job, AutoAnalyze.
    destruct (exec_AutoAnalyze sctx sh tr (TableStatsVer (w_job w))
                "analyze table %n.%n index %n"
                [TableSchema (w_job w); TableName (w_job w); index] (w_ext w))
      as [ok x'] eqn:Hexec.
    assert (Hidx : exec_index (w_job w) sctx sh tr index (w_ext w) = (ok, x'))
      by exact Hexec.
    destruct ok; simpl.
    + destruct (IH (log (EvAutoAnalyze (TableStatsVer (w_job w))
                           "analyze table %n.%n index %n"
                           [TableSchema (w_job w); TableName (w_job w); index]
                           true) w x'))
        as (ok & passed & failed & skipped & w' & Hr & Hl & (J & S & T)
            & Ht & Hf & Hp & Hq & Hx).
      simpl in J, S, T, Hp, Hq, Hx.
      exists ok, (index :: passed), failed, skipped, w'.
      split; [exact Hr|]. split; [now rewrite Hl|].
      split; [split; [exact J|]; split; [exact S|];
              rewrite T, <- app_assoc; reflexivity|].
      split; [exact Ht|]. split; [exact Hf|].
      split; [|split].
      * intros [|p pre] i post Hsplit; injection Hsplit as <- Hrest.
        -- simpl. now rewrite Hidx.
        -- simpl. rewrite Hidx. simpl. now apply (Hp pre i post).
      * intros i Hin. simpl. rewrite Hidx. simpl. now apply Hq.
      * simpl. rewrite Hidx. exact Hx.
    + exists false, [], [index], rest, (log (EvAutoAnalyze
               (TableStatsVer (w_job w)) "analyze table %n.%n index %n"
               [TableSchema (w_job w); TableName (w_job w); index] false) w x').
      split; [reflexivity|]. split; [reflexivity|].
      split; [split; [reflexivity|]; split; reflexivity|].
      split; [discriminate|]. split; [reflexivity|].
      split; [intros [|? ?] ? ? H; discriminate H|].
      split; [|simpl; now rewrite Hidx].
      intros i [<-|[]]. simpl. now rewrite Hidx.
Qed.

Lemma len_is_zero (l : list string) :
  (Z.of_nat (length l) =? 0)%Z = match l with [] => true | _ :: _ => false end.
Proof. destruct l; reflexivity. Qed.

(** Whatever the branch, [analyzeIndexes] returns, only talks to the
    executor, and answers whether all the statements it ran succeeded. *)
Lemma analyzeIndexes_run (sctx : SessionCtx) (sh : StatsHandle) (tr : Tracker)
    (w : World) :
  exists (ok : bool) (evs : list Event) (w' : World),
    analyzeIndexes sctx sh tr w = (Ok ok, w') /\
    extends w w' evs /\
    all_ok evs = ok /\
    hooks_fired evs = [].
Proof.
  unfold analyzeIndexes, bind, get_job. rewrite len_is_zero.
  destruct (Indexes (w_job w)) as [|first rest] eqn:Hidx.
  - exists true, [], w. auto using extends_refl.
  - unfold get_AnalyzeVersion.
    destruct (AnalyzeVersion sctx (w_ext w) =? 1)%Z.
    + destruct (analyzeIndexes_range_run sctx sh tr (first :: rest) w)
        as (ok & passed & failed & skipped & w' & Hr & _ & He & Ht & Hf).
      rewrite Hr. exists ok; eexists; exists w'.
      split; [reflexivity|]. split; [exact He|]. split.
      * rewrite all_ok_app, all_ok_passed. destruct ok.
        -- destruct (Ht eq_refl) as [-> _]. reflexivity.
        -- specialize (Hf eq_refl).
           destruct failed as [|f [|? ?]]; try discriminate. reflexivity.
      * now rewrite hooks_fired_app, !hooks_fired_index_events.
    + simpl.
      destruct (AutoAnalyze_run sctx sh tr (TableStatsVer (w_job w))
                  "analyze table %n.%n index %n"
                  [TableSchema (w_job w); TableName (w_job w); first] w)
        as (ok & w' & Hr & _ & He).
      rewrite Hr. exists ok; eexists; exists w'.
      split; [reflexivity|]. split; [exact He|].
      split; [simpl; apply andb_true_r | reflexivity].
Qed.

(** C1: under statistics format version 1 and a non-empty index list, the
    indexes are attempted one statement each in list order; the loop stops at
    the first statement that fails, the indexes after it are never attempted
    and the outcome is failure; when every statement succeeds, every index
    was attempted and the outcome is success.  The list splits into the
    indexes that passed, the one that failed (if any) and the ones skipped.
    Passing and failing are the executor's own answers: each index that
    passed was answered true by [exec_AutoAnalyze] in the state the
    statements before it left, the index that failed was answered false in
    the state the passed ones left, and the executor ends in the state after
    the statements attempted, the skipped ones never having reached it. *)
Theorem analyzeIndexes_version1_stops_at_first_failure
    (sctx : SessionCtx) (sh : StatsHandle) (tr : Tracker) (w : World) :
  Indexes (w_job w) <> [] ->
  AnalyzeVersion sctx (w_ext w) = 1%Z ->
  exists (ok : bool) (passed failed skipped : list string) (w' : World),
    analyzeIndexes sctx sh tr w = (Ok ok, w') /\
    Indexes (w_job w) = passed ++ failed ++ skipped /\
    events_since w w' =
      map (index_event (w_job w) true) passed ++
      map (index_event (w_job w) false) failed /\
    statements (events_since w w') =
      map (GenSQLForAnalyzeIndex (w_job w)) (passed ++ failed) /\
    (ok = true -> failed = [] /\ skipped = []) /\
    (ok = false -> length failed = 1) /\
    (forall (pre : list string) (i : string) (post : list string),
       passed = pre ++ i :: post ->
       fst (exec_index (w_job w) sctx sh tr i
              (ext_after_indexes (w_job w) sctx sh tr pre (w_ext w))) = true) /\
    (forall i : string,
       In i failed ->
       fst (exec_index (w_job w) sctx sh tr i
              (ext_after_indexes (w_job w) sctx sh tr passed (w_ext w))) = false) /\
    w_ext w' =
      ext_after_indexes (w_job w) sctx sh tr (passed ++ failed) (w_ext w).
Proof.
  intros Hne Hver.
  destruct (analyzeIndexes_range_answers sctx sh tr (Indexes (w_job w)) w)
    as (ok & passed & failed & skipped & w' & Hr & Hl & He & Ht & Hf
        & Hp & Hq & Hx).
  exists ok, passed, failed, skipped, w'.
  assert (Hev : events_since w w' =
                map (index_event (w_job w) true) passed ++
                map (index_event (w_job w) false) failed)
    by (apply events_since_app, He).
  split.
  - revert Hr. unfold analyzeIndexes, bind, get_job, get_AnalyzeVersion.
    rewrite len_is_zero.
    destruct (Indexes (w_job w)); [contradiction|].
    cbv beta iota. now rewrite Hver.
  - split; [exact Hl|]. split; [exact Hev|]. split; [|auto 10].
    now rewrite Hev, statements_app, !statements_index_events, map_app.
Qed.

(** C2: under statistics format version 2 or later and a non-empty index
    list, exactly one statement is attempted, the one of the first index,
    and the outcome is the executor's answer to it, whatever indexes
    follow. *)
Theorem analyzeIndexes_version2_first_index_only
    (sctx : SessionCtx) (sh : StatsHandle) (tr : Tracker) (w : World)
    (first : string) (rest : list string) :
  Indexes (w_job w) = first :: rest ->
  (2 <= AnalyzeVersion sctx (w_ext w))%Z ->
  exists (ok : bool) (w' : World),
    analyzeIndexes sctx sh tr w = (Ok ok, w') /\
    ok = fst (exec_AutoAnalyze sctx sh tr (TableStatsVer (w_job w))
                (fst (GenSQLForAnalyzeIndex (w_job w) first))
                (snd (GenSQLForAnalyzeIndex (w_job w) first)) (w_ext w)) /\
    events_since w w' = [index_event (w_job w) ok first] /\
    statements (events_since w w') = [GenSQLForAnalyzeIndex (w_job w) first].
Proof.
  intros Hidx Hver.
  destruct (AutoAnalyze_run sctx sh tr (TableStatsVer (w_job w))
              (fst (GenSQLForAnalyzeIndex (w_job w) first))
              (snd (GenSQLForAnalyzeIndex (w_job w) first)) w)
    as (ok & w' & Hr & Hok & He).
  exists ok, w'.
  assert (Hev : events_since w w' = [index_event (w_job w) ok first])
    by (apply events_since_app, He).
  split.
  - unfold analyzeIndexes, bind, get_job, get_AnalyzeVersion.
    rewrite len_is_zero, Hidx. cbv beta iota.
    destruct (Z.eqb_spec (AnalyzeVersion sctx (w_ext w)) 1) as [E|_]; [lia|].
    exact Hr.
  - split; [exact Hok|]. split; [exact Hev|]. now rewrite Hev.
Qed.

(** C9: with an empty index list [analyzeIndexes] returns true at once and
    attempts nothing (the store is untouched); and in no store at all does
    it panic, so the read of the first index in the branch for the later
    versions is never out of range. *)
Theorem analyzeIndexes_empty_is_noop_and_never_out_of_range
    (sctx : SessionCtx) (sh : StatsHandle) (tr : Tracker) (w : World) :
  (Indexes (w_job w) = [] -> analyzeIndexes sctx sh tr w = (Ok true, w)) /\
  is_panic (fst (analyzeIndexes sctx sh tr w)) = false /\
  (Indexes (w_job w) <> [] ->
   is_panic (fst (index_slice (Indexes (w_job w)) 0 w)) = false).
Proof.
  split; [|split].
  - intros Hidx. unfold analyzeIndexes, bind, get_job.
    now rewrite len_is_zero, Hidx.
  - destruct (analyzeIndexes_run sctx sh tr w) as (ok & evs & w' & Hr & _).
    now rewrite Hr.
  - intros Hne. destruct (Indexes (w_job w)); [contradiction | reflexivity].
Qed.

(** ** Running [Analyze] *)

Lemma getAnalyzeType_cases (j : Job) :
  (getAnalyzeType j = analyzeTable /\ Indexes j = []) \/
  (getAnalyzeType j = analyzeIndex /\ Indexes j <> []).
Proof.
  unfold getAnalyzeType, HasNewlyAddedIndex.
  destruct (Indexes j); [left | right]; split; auto; discriminate.
Qed.

Lemma analyzeTableM_run (sctx : SessionCtx) (sh : StatsHandle) (tr : Tracker)
    (w : World) :
  exists (ok : bool) (w' : World),
    analyzeTableM sctx sh tr w = (Ok ok, w') /\
    extends w w' [table_event (w_job w) ok].
Proof.
  unfold analyzeTableM, bind, get_job. simpl.
  destruct (AutoAnalyze_run sctx sh tr (TableStatsVer (w_job w))
              "analyze table %n.%n" [TableSchema (w_job w); TableName (w_job w)] w)
    as (ok & w' & Hr & _ & He).
  rewrite Hr. now exists ok, w'.
Qed.

(** The function literal run inside the session: it returns [nil], talks
    only to the executor, and leaves in the flag whether every statement it
    ran succeeded. *)
Lemma Analyze_callback_run (sh : StatsHandle) (tr : Tracker)
    (sctx : SessionCtx) (w : World) :
  exists (evs : list Event) (w' : World),
    Analyze_callback sh tr sctx w = (Ok None, w') /\
    w_job w' = w_job w /\
    w_trace w' = w_trace w ++ evs /\
    local_success w' = all_ok evs /\
    hooks_fired evs = [].
Proof.
  unfold Analyze_callback, bind at 1, get_job at 1.
  destruct (getAnalyzeType_cases (w_job w)) as [[-> _]|[-> _]]; simpl.
  - destruct (analyzeTableM_run sctx sh tr w) as (ok & w1 & Hr & J & S & T).
    unfold bind. rewrite Hr. simpl.
    eexists; eexists. split; [reflexivity|]. simpl.
    split; [exact J|]. split; [exact T|].
    split; [simpl; now rewrite andb_true_r | reflexivity].
  - destruct (analyzeIndexes_run sctx sh tr w)
      as (ok & evs & w1 & Hr & (J & S & T) & Hok & Hh).
    unfold bind. rewrite Hr. simpl.
    exists evs; eexists. split; [reflexivity|]. simpl. auto.
Qed.

(** The deferred function literal: it calls the callback of the field the
    flag selects, if there is one, and nothing else. *)
Lemma Analyze_deferred_run (w : World) :
  exists w' : World,
    Analyze_deferred w = (Ok tt, w') /\
    local_success w' = local_success w /\
    w_trace w' =
      w_trace w ++
      map EvHook (registered (selected_hook (local_success w) (w_job w))).
Proof.
  unfold Analyze_deferred, bind, get_success, get_job, selected_hook.
  destruct (local_success w) eqn:Hs.
  - destruct (successHook (w_job w)) as [h|]; simpl.
    + destruct (hook_code h (w_job w) (w_ext w)) as [j' x'].
      eexists. split; [reflexivity|]. simpl. auto.
    + exists w. simpl. rewrite app_nil_r. auto.
  - destruct (failureHook (w_job w)) as [h|]; simpl.
    + destruct (hook_code h (w_job w) (w_ext w)) as [j' x'].
      eexists. split; [reflexivity|]. simpl. auto.
    + exists w. simpl. rewrite app_nil_r. auto.
Qed.

(** One run of [Analyze], in full: it returns the error of the session
    acquisition; the statements come first in the log, none if no session
    was obtained; the flag at exit tells whether all of them succeeded; the
    log ends with the call, if any, of the hook that the flag selects. *)
Lemma Analyze_run (sh : StatsHandle) (tr : Tracker) (w : World) :
  exists (stmts : list Event) (w' : World),
    Analyze sh tr w = (Ok (acquisition_error sh w), w') /\
    hooks_fired stmts = [] /\
    local_success w' = all_ok stmts /\
    (acquisition_error sh w <> None -> stmts = []) /\
    events_since w w' =
      stmts ++
      map EvHook (registered (selected_hook (all_ok stmts) (w_job w))).
Proof.
  unfold Analyze, bind at 1, set_success, defer at 1, CallWithSCtx,
    bind at 1, pool_get, acquisition_error. simpl.
  destruct (pool_Get (SPool sh) (w_ext w)) as [[err|sctx] x1]; simpl.
  - match goal with |- context [Analyze_deferred ?w0] =>
      destruct (Analyze_deferred_run w0) as (w' & Hd & S & T) end.
    rewrite Hd. simpl in S, T.
    exists [], w'. split; [reflexivity|]. split; [reflexivity|].
    split; [exact S|]. split; [reflexivity|].
    apply events_since_app. exact T.
  - unfold defer, pool_put.
    match goal with |- context [Analyze_callback sh tr sctx ?w0] =>
      destruct (Analyze_callback_run sh tr sctx w0)
        as (evs & w1 & Hc & J & T & S & Hh) end.
    rewrite Hc. simpl in J, T.
    match goal with |- context [Analyze_deferred ?w0] =>
      destruct (Analyze_deferred_run w0) as (w' & Hd & S' & T') end.
    rewrite Hd. simpl in S', T'. rewrite J, T, S in T'. rewrite S in S'.
    exists evs, w'. split; [reflexivity|]. split; [exact Hh|].
    split; [exact S'|]. split; [intros H; now elim H|].
    apply events_since_app. now rewrite T', app_assoc.
Qed.

Lemma all_ok_hook_events (l : list HookRef) : all_ok (map EvHook l) = true.
Proof. unfold all_ok. induction l; simpl; auto. Qed.

Lemma registered_length (h : JobHook) :
  length (registered h) = if is_nil h then 0 else 1.
Proof. now destruct h. Qed.

(** What [Analyze_run] says about the hooks alone. *)
Lemma Analyze_hooks (sh : StatsHandle) (tr : Tracker) (w : World) :
  exists w' : World,
    Analyze sh tr w = (Ok (acquisition_error sh w), w') /\
    local_success w' = all_ok (events_since w w') /\
    hooks_fired (events_since w w') =
      registered (selected_hook (local_success w') (w_job w)).
Proof.
  destruct (Analyze_run sh tr w) as (stmts & w' & Hr & Hh & Hs & _ & He).
  exists w'. split; [exact Hr|].
  rewrite He, all_ok_app, all_ok_hook_events, andb_true_r.
  split; [exact Hs|].
  now rewrite hooks_fired_app, Hh, hooks_fired_hook_events, Hs.
Qed.

(** C3 (amended): every call to [Analyze] returns, and at exit the flag
    selects exactly one hook field, [successHook] when it is still true and
    [failureHook] otherwise; the callback registered in that field is called
    exactly once and no other callback is called; when the field is nil no
    callback is called at all.  The flag at exit tells whether every
    statement that was run succeeded, whichever branch ran and also when no
    session was obtained. *)
Theorem Analyze_fires_the_selected_hook_once
    (sh : StatsHandle) (tr : Tracker) (w : World) :
  exists (r : error) (w' : World),
    Analyze sh tr w = (Ok r, w') /\
    local_success w' = all_ok (events_since w w') /\
    hooks_fired (events_since w w') =
      registered (selected_hook (local_success w') (w_job w)) /\
    length (hooks_fired (events_since w w')) =
      if is_nil (selected_hook (local_success w') (w_job w)) then 0 else 1.
Proof.
  destruct (Analyze_hooks sh tr w) as (w' & Hr & Hs & Hh).
  exists (acquisition_error sh w), w'.
  split; [exact Hr|]. split; [exact Hs|]. split; [exact Hh|].
  rewrite Hh. apply registered_length.
Qed.

(** ** The validity gate *)

Lemma IsValidToAnalyze_run (sctx : SessionCtx) (w : World) :
  let j := w_job w in
  let o := isValidToAnalyze sctx (TableSchema j) (TableName j) (w_ext w) in
  exists w' : World,
    IsValidToAnalyze sctx w =
      (Ok (if fst (fst o) then (true, "") else (false, snd (fst o))), w') /\
    w_trace w' =
      w_trace w ++
      (if fst (fst o) then [] else map EvHook (registered (failureHook j))) /\
    (w_job w', w_ext w') =
      (if fst (fst o) then (j, snd o)
       else match failureHook j with
            | Some h => hook_code h j (snd o)
            | None => (j, snd o)
            end).
Proof.
  intros j o. subst j o.
  unfold IsValidToAnalyze, bind, get_job, check_isValidToAnalyze.
  destruct (isValidToAnalyze sctx (TableSchema (w_job w)) (TableName (w_job w))
              (w_ext w)) as [[valid reason] x1].
  destruct valid; simpl.
  - eexists. split; [reflexivity|]. simpl. now rewrite app_nil_r.
  - destruct (failureHook (w_job w)) as [h|]; simpl.
    + destruct (hook_code h (w_job w) x1) as [j' x'] eqn:Hh.
      eexists. split; [reflexivity|]. simpl. auto.
    + eexists. split; [reflexivity|]. simpl. now rewrite app_nil_r.
Qed.

(** C4: a callback is called only if it is registered.  Neither [Analyze]
    nor [IsValidToAnalyze] panics, whatever the hook fields hold; every
    callback they call is the content of a hook field of the job; with no
    success hook, [Analyze] leaving with the flag true calls nothing; with
    no failure hook, [Analyze] leaving with the flag false and
    [IsValidToAnalyze] returning false call nothing. *)
Theorem hooks_fire_only_if_registered
    (sh : StatsHandle) (tr : Tracker) (sctx : SessionCtx) (w : World) :
  let j := w_job w in
  let a := Analyze sh tr w in
  let v := IsValidToAnalyze sctx w in
  is_panic (fst a) = false /\
  is_panic (fst v) = false /\
  (forall h : HookRef,
     In h (hooks_fired (events_since w (snd a))) ->
     successHook j = Some h \/ failureHook j = Some h) /\
  (forall h : HookRef,
     In h (hooks_fired (events_since w (snd v))) -> failureHook j = Some h) /\
  (successHook j = None -> local_success (snd a) = true ->
   hooks_fired (events_since w (snd a)) = []) /\
  (failureHook j = None -> local_success (snd a) = false ->
   hooks_fired (events_since w (snd a)) = []) /\
  (failureHook j = None ->
   forall reason : string, fst v = Ok (false, reason) ->
   hooks_fired (events_since w (snd v)) = []).
Proof.
  intros j a v. subst j a v.
  destruct (Analyze_hooks sh tr w) as (wa & Ha & _ & Hh).
  destruct (IsValidToAnalyze_run sctx w) as (wv & Hv & Tv & _).
  apply events_since_app in Tv.
  rewrite Ha, Hv. simpl. rewrite Hh, Tv. unfold selected_hook.
  split; [reflexivity|]. split; [reflexivity|].
  split; [|split; [|split; [|split]]].
  - intros h. destruct (local_success wa).
    + destruct (successHook (w_job w)); simpl; intuition congruence.
    + destruct (failureHook (w_job w)); simpl; intuition congruence.
  - intros h.
    destruct (fst (fst (isValidToAnalyze sctx (TableSchema (w_job w))
                          (TableName (w_job w)) (w_ext w)))); simpl.
    + intros [].
    + rewrite hooks_fired_hook_events.
      destruct (failureHook (w_job w)); simpl; intuition congruence.
  - now intros -> ->.
  - now intros -> ->.
  - intros -> reason _.
    now destruct (fst (fst (isValidToAnalyze sctx (TableSchema (w_job w))
                              (TableName (w_job w)) (w_ext w)))).
Qed.

(** C5: the error returned by [Analyze] is the error of the session
    acquisition and nothing else.  When a session is obtained [Analyze]
    returns nil, also when a statement fails; a failed statement shows in
    the flag and in the failure hook being the one fired. *)
Theorem Analyze_returns_only_the_acquisition_error
    (sh : StatsHandle) (tr : Tracker) (w : World) :
  let a := Analyze sh tr w in
  fst a = Ok (acquisition_error sh w) /\
  (forall (sctx : SessionCtx) (x1 : Ext),
     pool_Get (SPool sh) (w_ext w) = (inr sctx, x1) ->
     fst a = Ok None /\
     (all_ok (events_since w (snd a)) = false ->
      local_success (snd a) = false /\
      hooks_fired (events_since w (snd a)) = registered (failureHook (w_job w)))).
Proof.
  intros a. subst a.
  destruct (Analyze_hooks sh tr w) as (w' & Hr & Hs & Hh).
  rewrite Hr. simpl. split; [reflexivity|].
  intros sctx x1 Hget. split.
  - unfold acquisition_error. now rewrite Hget.
  - intros Hfail. rewrite Hh, Hs, Hfail. auto.
Qed.

(** C6 (amended): when the eligibility check rejects the job's schema and
    table, [IsValidToAnalyze] calls the failure hook if one is registered,
    once, on the job and on the state the check left, and calls nothing
    when none is registered; then it returns false with the reason of the
    check.  When the check accepts, it returns true with an empty reason
    and calls no hook. *)
Theorem IsValidToAnalyze_fires_registered_failure_hook
    (sctx : SessionCtx) (w : World) (valid : bool) (reason : string)
    (x1 : Ext) :
  isValidToAnalyze sctx (TableSchema (w_job w)) (TableName (w_job w)) (w_ext w)
    = ((valid, reason), x1) ->
  let v := IsValidToAnalyze sctx w in
  (valid = false ->
   fst v = Ok (false, reason) /\
   events_since w (snd v) = map EvHook (registered (failureHook (w_job w))) /\
   (w_job (snd v), w_ext (snd v)) =
     match failureHook (w_job w) with
     | Some h => hook_code h (w_job w) x1
     | None => (w_job w, x1)
     end) /\
  (valid = true ->
   fst v = Ok (true, "") /\
   events_since w (snd v) = [] /\
   (w_job (snd v), w_ext (snd v)) = (w_job w, x1)).
Proof.
  intros Ho v. subst v.
  destruct (IsValidToAnalyze_run sctx w) as (w' & Hr & T & JX).
  rewrite Ho in Hr, T, JX. simpl in Hr, T, JX.
  apply events_since_app in T. rewrite Hr. simpl.
  split; intros ->; auto.
Qed.

End Properties.

(** ** Properties of the pure methods *)

(** C7: [getAnalyzeType] answers index analysis exactly when
    [HasNewlyAddedIndex] is true, that is when the index list is not empty,
    and table analysis exactly when the list is empty; it is a function of
    the index list of the job alone. *)
Theorem getAnalyzeType_follows_HasNewlyAddedIndex (j : Job) :
  (getAnalyzeType j = analyzeIndex <-> HasNewlyAddedIndex j = true) /\
  (HasNewlyAddedIndex j = true <-> Indexes j <> []) /\
  (getAnalyzeType j = analyzeTable <-> Indexes j = []) /\
  (forall j' : Job, Indexes j' = Indexes j ->
                    getAnalyzeType j' = getAnalyzeType j).
Proof.
  unfold getAnalyzeType, HasNewlyAddedIndex.
  split; [|split; [|split]].
  - destruct (Indexes j); simpl; split; intros H;
      solve [discriminate | reflexivity].
  - destruct (Indexes j); simpl; split; intros H;
      solve [discriminate | reflexivity | now elim H].
  - destruct (Indexes j); simpl; split; intros H;
      solve [discriminate | reflexivity].
  - now intros j' ->.
Qed.

(** C8: [GenSQLForAnalyzeTable] returns the analyze-table template, which
    is the same text for every job (the names are not spliced into it), and
    the two parameters schema and table in this order, as many as the
    template has identifier placeholders; [GenSQLForAnalyzeIndex] returns a
    template of three placeholders and the three parameters schema, table
    and index in this order. *)
Theorem GenSQL_templates_and_parameters (j : Job) (idx : string) :
  GenSQLForAnalyzeTable j =
    ("analyze table %n.%n", [TableSchema j; TableName j]) /\
  count_ident_placeholders (fst (GenSQLForAnalyzeTable j)) = 2 /\
  length (snd (GenSQLForAnalyzeTable j)) = 2 /\
  (forall j' : Job,
     fst (GenSQLForAnalyzeTable j') = fst (GenSQLForAnalyzeTable j)) /\
  GenSQLForAnalyzeIndex j idx =
    ("analyze table %n.%n index %n", [TableSchema j; TableName j; idx]) /\
  count_ident_placeholders (fst (GenSQLForAnalyzeIndex j idx)) = 3 /\
  length (snd (GenSQLForAnalyzeIndex j idx)) = 3 /\
  (forall (j' : Job) (idx' : string),
     fst (GenSQLForAnalyzeIndex j' idx') = fst (GenSQLForAnalyzeIndex j idx)).
Proof. repeat split. Qed.

(** C10: the indicators given to the constructor are the ones
    [GetIndicators] returns, field by field, and [GetIndicators] after
    [SetIndicators v] returns [v]. *)
Theorem indicators_round_trip
    (schema tableName : string) (tableID : Z) (indexes : list string)
    (tableStatsVer : Z) (changePercentage tableSize : float64)
    (lastAnalysisDuration : Duration) (j : Job) (v : Indicators) :
  let j0 := NewNonPartitionedTableAnalysisJob schema tableName tableID
              indexes tableStatsVer changePercentage tableSize
              lastAnalysisDuration in
  ChangePercentage (GetIndicators j0) = changePercentage /\
  TableSize (GetIndicators j0) = tableSize /\
  LastAnalysisDuration (GetIndicators j0) = lastAnalysisDuration /\
  GetIndicators j0 =
    mkIndicators changePercentage tableSize lastAnalysisDuration /\
  GetIndicators (SetIndicators v j) = v.
Proof. repeat split. Qed.

(** * The methods on explicit inputs *)

(** Version 1, indexes a, b, c, the statement of b fails: a and b are
    attempted, c is not, and the outcome is failure. *)
Example version1_attempts_a_and_b :
  let r := analyzeIndexes Demo.sctx_v1 Demo.pool_v1 tt
             (Demo.start (Demo.job Demo.abc)) in
  fst r = Ok false /\
  w_trace (snd r) =
    [EvAutoAnalyze 2 "analyze table %n.%n index %n" ["test"; "t"; "idx_a"] true;
     EvAutoAnalyze 2 "analyze table %n.%n index %n" ["test"; "t"; "idx_b"] false].
Proof. split; reflexivity. Qed.

(** In that run the executor was reached twice, and the index c, run in
    the state the run ended in, would have been answered true. *)
Example version1_reaches_the_executor_twice :
  let r := analyzeIndexes Demo.sctx_v1 Demo.pool_v1 tt
             (Demo.start (Demo.job Demo.abc)) in
  w_ext (snd r) = 2 /\
  w_ext (snd r) =
    ext_after_indexes (Demo.job Demo.abc) Demo.sctx_v1 Demo.pool_v1 tt
      ["idx_a"; "idx_b"] 0 /\
  fst (exec_index (Demo.job Demo.abc) Demo.sctx_v1 Demo.pool_v1 tt "idx_c"
         (w_ext (snd r))) = true.
Proof. repeat split. Qed.

(** Version 2, same indexes: the statement of a alone. *)
Example version2_attempts_a_only :
  let r := analyzeIndexes Demo.sctx_v2 Demo.pool_v2 tt
             (Demo.start (Demo.job Demo.abc)) in
  fst r = Ok true /\
  w_trace (snd r) =
    [EvAutoAnalyze 2 "analyze table %n.%n index %n" ["test"; "t"; "idx_a"] true].
Proof. split; reflexivity. Qed.

(** [Analyze] of a table job: one analyze-table statement, then the success
    hook. *)
Example Analyze_table_job :
  let r := Analyze Demo.pool_v2 tt (Demo.start (Demo.hooked [])) in
  fst r = Ok None /\
  w_trace (snd r) =
    [EvAutoAnalyze 2 "analyze table %n.%n" ["test"; "t"] true; EvHook 7].
Proof. split; reflexivity. Qed.

(** [Analyze] when the pool has no session: the error is returned, no
    statement is run, the flag is still true and the success hook is the one
    called. *)
Example Analyze_without_session :
  let r := Analyze Demo.no_pool tt (Demo.start (Demo.hooked Demo.abc)) in
  fst r = Ok (Some "no session available") /\
  w_trace (snd r) = [EvHook 7].
Proof. split; reflexivity. Qed.

(** C1, on the indexes a, b, c with version 1 sessions. *)
Lemma analyzeIndexes_version1_witness :
  Indexes (w_job (Demo.start (Demo.job Demo.abc))) <> [] /\
  AnalyzeVersion Demo.sctx_v1 (w_ext (Demo.start (Demo.job Demo.abc))) = 1%Z /\
  exists (ok : bool) (passed failed skipped : list string) w',
    analyzeIndexes Demo.sctx_v1 Demo.pool_v1 tt
      (Demo.start (Demo.job Demo.abc)) = (Ok ok, w') /\
    Indexes (Demo.job Demo.abc) = passed ++ failed ++ skipped /\
    events_since (Demo.start (Demo.job Demo.abc)) w' =
      map (index_event (Demo.job Demo.abc) true) passed ++
      map (index_event (Demo.job Demo.abc) false) failed /\
    statements (events_since (Demo.start (Demo.job Demo.abc)) w') =
      map (GenSQLForAnalyzeIndex (Demo.job Demo.abc)) (passed ++ failed) /\
    (ok = true -> failed = [] /\ skipped = []) /\
    (ok = false -> length failed = 1) /\
    (forall (pre : list string) (i : string) (post : list string),
       passed = pre ++ i :: post ->
       fst (exec_index (Demo.job Demo.abc) Demo.sctx_v1 Demo.pool_v1 tt i
              (ext_after_indexes (Demo.job Demo.abc) Demo.sctx_v1
                 Demo.pool_v1 tt pre 0)) = true) /\
    (forall i : string,
       In i failed ->
       fst (exec_index (Demo.job Demo.abc) Demo.sctx_v1 Demo.pool_v1 tt i
              (ext_after_indexes (Demo.job Demo.abc) Demo.sctx_v1
                 Demo.pool_v1 tt passed 0)) = false) /\
    w_ext w' =
      ext_after_indexes (Demo.job Demo.abc) Demo.sctx_v1 Demo.pool_v1 tt
        (passed ++ failed) 0.
Proof.
  split; [discriminate|]. split; [reflexivity|].
  apply (analyzeIndexes_version1_stops_at_first_failure
           Demo.sctx_v1 Demo.pool_v1 tt (Demo.start (Demo.job Demo.abc)));
    [discriminate | reflexivity].
Defined.

(** C2, on the indexes a, b, c with version 2 sessions. *)
Lemma analyzeIndexes_version2_witness :
  exists (ok : bool) w',
    analyzeIndexes Demo.sctx_v2 Demo.pool_v2 tt
      (Demo.start (Demo.job Demo.abc)) = (Ok ok, w') /\
    ok = fst (exec_AutoAnalyze Demo.sctx_v2 Demo.pool_v2 tt 2%Z
                "analyze table %n.%n index %n" ["test"; "t"; "idx_a"] 0) /\
    events_since (Demo.start (Demo.job Demo.abc)) w' =
      [index_event (Demo.job Demo.abc) ok "idx_a"] /\
    statements (events_since (Demo.start (Demo.job Demo.abc)) w') =
      [GenSQLForAnalyzeIndex (Demo.job Demo.abc) "idx_a"].
Proof.
  apply (analyzeIndexes_version2_first_index_only
           Demo.sctx_v2 Demo.pool_v2 tt (Demo.start (Demo.job Demo.abc))
           "idx_a" ["idx_b"; "idx_c"]);
    [reflexivity | change (2 <= 2)%Z; lia].
Defined.

(** C3 as the spec words it fails on a job fresh from the constructor: the
    call returns, and no hook fires rather than exactly one. *)
Lemma Analyze_of_unhooked_job_fires_no_hook :
  fst (Analyze Demo.pool_v2 tt (Demo.start (Demo.job Demo.abc))) = Ok None /\
  hooks_fired
    (events_since (Demo.start (Demo.job Demo.abc))
       (snd (Analyze Demo.pool_v2 tt (Demo.start (Demo.job Demo.abc))))) = [] /\
  length
    (hooks_fired
       (events_since (Demo.start (Demo.job Demo.abc))
          (snd (Analyze Demo.pool_v2 tt (Demo.start (Demo.job Demo.abc))))))
    <> 1.
Proof. split; [reflexivity|]. split; [reflexivity | discriminate]. Qed.

(** C4, on jobs fresh from the constructor: [Analyze] leaving with the flag
    true, [Analyze] leaving with the flag false and [IsValidToAnalyze]
    returning false call nothing. *)
Lemma hooks_fire_only_if_registered_witness :
  hooks_fired
    (events_since (Demo.start (Demo.job []))
       (snd (Analyze Demo.pool_v2 tt (Demo.start (Demo.job []))))) = [] /\
  hooks_fired
    (events_since (Demo.start (Demo.job Demo.abc))
       (snd (Analyze Demo.pool_v1 tt (Demo.start (Demo.job Demo.abc))))) = [] /\
  hooks_fired
    (events_since (Demo.start Demo.rejected)
       (snd (IsValidToAnalyze Demo.sctx_v2 (Demo.start Demo.rejected)))) = [].
Proof.
  split; [|split].
  - destruct (hooks_fire_only_if_registered Demo.pool_v2 tt Demo.sctx_v2
                (Demo.start (Demo.job []))) as (_ & _ & _ & _ & H & _).
    apply H; reflexivity.
  - destruct (hooks_fire_only_if_registered Demo.pool_v1 tt Demo.sctx_v1
                (Demo.start (Demo.job Demo.abc))) as (_ & _ & _ & _ & _ & H & _).
    apply H; reflexivity.
  - destruct (hooks_fire_only_if_registered Demo.pool_v2 tt Demo.sctx_v2
                (Demo.start Demo.rejected)) as (_ & _ & _ & _ & _ & _ & H).
    apply (H eq_refl "last failed analysis is too recent"). reflexivity.
Defined.

(** C5, on a run in which a session is obtained and the statement of the
    second index fails: [Analyze] returns nil and the failure hook fires. *)
Lemma Analyze_returns_only_the_acquisition_error_witness :
  fst (Analyze Demo.pool_v1 tt (Demo.start (Demo.hooked Demo.abc))) = Ok None /\
  local_success
    (snd (Analyze Demo.pool_v1 tt (Demo.start (Demo.hooked Demo.abc)))) = false /\
  hooks_fired
    (events_since (Demo.start (Demo.hooked Demo.abc))
       (snd (Analyze Demo.pool_v1 tt (Demo.start (Demo.hooked Demo.abc))))) = [9].
Proof.
  destruct (Analyze_returns_only_the_acquisition_error Demo.pool_v1 tt
              (Demo.start (Demo.hooked Demo.abc))) as [_ H].
  destruct (H Demo.sctx_v1 0 eq_refl) as [Hnil Hfail].
  split; [exact Hnil|]. exact (Hfail eq_refl).
Defined.

(** C6 as the spec words it fails on a job fresh from the constructor that
    the check rejects: false and the reason are returned, and no hook
    fires. *)
Lemma IsValidToAnalyze_of_unhooked_job_fires_no_hook :
  fst (IsValidToAnalyze Demo.sctx_v2 (Demo.start Demo.rejected)) =
    Ok (false, "last failed analysis is too recent") /\
  hooks_fired
    (events_since (Demo.start Demo.rejected)
       (snd (IsValidToAnalyze Demo.sctx_v2 (Demo.start Demo.rejected)))) = [].
Proof. split; reflexivity. Qed.

(** C6 (amended), on the rejected table with a failure hook registered and
    on an accepted table. *)
Lemma IsValidToAnalyze_fires_registered_failure_hook_witness :
  (fst (IsValidToAnalyze Demo.sctx_v2
          (Demo.start (RegisterFailureHook (Some 9) Demo.rejected))) =
     Ok (false, "last failed analysis is too recent") /\
   events_since (Demo.start (RegisterFailureHook (Some 9) Demo.rejected))
     (snd (IsValidToAnalyze Demo.sctx_v2
             (Demo.start (RegisterFailureHook (Some 9) Demo.rejected)))) =
     [EvHook 9]) /\
  (fst (IsValidToAnalyze Demo.sctx_v2 (Demo.start (Demo.hooked []))) =
     Ok (true, "") /\
   events_since (Demo.start (Demo.hooked []))
     (snd (IsValidToAnalyze Demo.sctx_v2 (Demo.start (Demo.hooked [])))) = []).
Proof.
  split.
  - destruct (IsValidToAnalyze_fires_registered_failure_hook Demo.sctx_v2
                (Demo.start (RegisterFailureHook (Some 9) Demo.rejected))
                false "last failed analysis is too recent" 0 eq_refl)
      as [H _].
    destruct (H eq_refl) as (Hr & He & _). split; [exact Hr | exact He].
  - destruct (IsValidToAnalyze_fires_registered_failure_hook Demo.sctx_v2
                (Demo.start (Demo.hooked [])) true "" 0 eq_refl)
      as [_ H].
    destruct (H eq_refl) as (Hr & He & _). split; [exact Hr | exact He].
Defined.

(** C7, on two jobs with the same index list and different hooks. *)
Lemma getAnalyzeType_follows_HasNewlyAddedIndex_witness :
  getAnalyzeType (Demo.hooked Demo.abc) = getAnalyzeType (Demo.job Demo.abc).
Proof.
  apply (getAnalyzeType_follows_HasNewlyAddedIndex (Demo.job Demo.abc)).
  reflexivity.
Defined.

(** C9, on a job without indexes. *)
Lemma analyzeIndexes_empty_is_noop_witness :
  analyzeIndexes Demo.sctx_v2 Demo.pool_v2 tt (Demo.start (Demo.job [])) =
    (Ok true, Demo.start (Demo.job [])).
Proof.
  apply (analyzeIndexes_empty_is_noop_and_never_out_of_range
           Demo.sctx_v2 Demo.pool_v2 tt (Demo.start (Demo.job []))).
  reflexivity.
Defined.

(** * Further properties of the execution protocol *)

Section Protocol.
Context {C : Collaborators}.

Lemma statements_hook_events (l : list HookRef) :
  statements (map EvHook l) = [].
Proof. unfold statements. induction l; simpl; auto. Qed.

Lemma getAnalyzeType_table (j : Job) :
  Indexes j = [] -> getAnalyzeType j = analyzeTable.
Proof. unfold getAnalyzeType, HasNewlyAddedIndex. now intros ->. Qed.

Lemma getAnalyzeType_index (j : Job) :
  Indexes j <> [] -> getAnalyzeType j = analyzeIndex.
Proof.
  unfold getAnalyzeType, HasNewlyAddedIndex.
  destruct (Indexes j); [contradiction | reflexivity].
Qed.

(** The analyze-table statement and the executor's answer to it. *)
Lemma analyzeTableM_answer (sctx : SessionCtx) (sh : StatsHandle)
    (tr : Tracker) (w : World) :
  exists (ok : bool) (w' : World),
    analyzeTableM sctx sh tr w = (Ok ok, w') /\
    ok = fst (exec_AutoAnalyze sctx sh tr (TableStatsVer (w_job w))
                "analyze table %n.%n"
                [TableSchema (w_job w); TableName (w_job w)] (w_ext w)) /\
    extends w w' [table_event (w_job w) ok].
Proof.
  unfold analyzeTableM, bind, get_job. simpl.
  destruct (AutoAnalyze_run sctx sh tr (TableStatsVer (w_job w))
              "analyze table %n.%n" [TableSchema (w_job w); TableName (w_job w)] w)
    as (ok & w' & Hr & Hok & He).
  rewrite Hr. now exists ok, w'.
Qed.

(** The statements of [analyzeIndexes], for every analyze version: a prefix
    of the index list that is not empty, every statement but the last one
    answered true, and the outcome the answer to the last one. *)
Lemma analyzeIndexes_prefix (sctx : SessionCtx) (sh : StatsHandle)
    (tr : Tracker) (w : World) :
  Indexes (w_job w) <> [] ->
  exists (ok : bool) (passed failed skipped : list string) (w' : World),
    analyzeIndexes sctx sh tr w = (Ok ok, w') /\
    Indexes (w_job w) = passed ++ failed ++ skipped /\
    extends w w' (map (index_event (w_job w) true) passed ++
                  map (index_event (w_job w) false) failed) /\
    (ok = true -> failed = []) /\
    (ok = false -> length failed = 1) /\
    passed ++ failed <> [] /\
    (AnalyzeVersion sctx (w_ext w) = 1%Z -> ok = true -> skipped = []) /\
    (AnalyzeVersion sctx (w_ext w) <> 1%Z -> length (passed ++ failed) = 1).
Proof.
  intros Hne.
  unfold analyzeIndexes, bind, get_job, get_AnalyzeVersion.
  rewrite len_is_zero.
  destruct (Indexes (w_job w)) as [|first rest] eqn:Hidx; [contradiction|].
  cbv beta iota.
  destruct (Z.eqb_spec (AnalyzeVersion sctx (w_ext w)) 1) as [Hv|Hv].
  - destruct (analyzeIndexes_range_run sctx sh tr (first :: rest) w)
      as (ok & passed & failed & skipped & w' & Hr & Hl & He & Ht & Hf).
    exists ok, passed, failed, skipped, w'.
    split; [exact Hr|]. split; [exact Hl|]. split; [exact He|].
    split; [intros H; apply (Ht H)|]. split; [exact Hf|].
    split; [|split; [intros _ H; apply (Ht H) | intros H; now elim H]].
    destruct ok.
    + destruct (Ht eq_refl) as [-> ->]. rewrite !app_nil_r in *.
      now rewrite <- Hl.
    + specialize (Hf eq_refl). destruct failed; [discriminate|].
      now destruct passed.
  - simpl.
    destruct (AutoAnalyze_run sctx sh tr (TableStatsVer (w_job w))
                "analyze table %n.%n index %n"
                [TableSchema (w_job w); TableName (w_job w); first] w)
      as (ok & w' & Hr & _ & He).
    rewrite Hr. destruct ok.
    + exists true, [first], [], rest, w'.
      split; [reflexivity|]. split; [reflexivity|]. split; [exact He|].
      split; [reflexivity|]. split; [discriminate|].
      split; [discriminate|]. split; [intros H; now elim Hv | reflexivity].
    + exists false, [], [first], rest, w'.
      split; [reflexivity|]. split; [reflexivity|]. split; [exact He|].
      split; [discriminate|]. split; [reflexivity|].
      split; [discriminate|]. split; [intros H; now elim Hv | reflexivity].
Qed.

(** A run of [Analyze] that obtains a session: the store in which the
    branch starts has the flag set and the state the pool left; the branch is
    chosen by the index list; the hook is chosen by the branch's outcome. *)
Lemma Analyze_session_run (sh : StatsHandle) (tr : Tracker) (w : World)
    (sctx : SessionCtx) (x1 : Ext) :
  pool_Get (SPool sh) (w_ext w) = (inr sctx, x1) ->
  exists (ok : bool) (w1 w' : World),
    (match Indexes (w_job w) with
     | [] => analyzeTableM sctx sh tr
     | _ :: _ => analyzeIndexes sctx sh tr
     end) (mkWorld (w_job w) true x1 (w_trace w)) = (Ok ok, w1) /\
    Analyze sh tr w = (Ok None, w') /\
    local_success w' = ok /\
    w_trace w' =
      w_trace w1 ++ map EvHook (registered (selected_hook ok (w_job w))).
Proof.
  intros Hget.
  unfold Analyze, bind at 1, set_success, defer at 1, CallWithSCtx,
    bind at 1, pool_get. simpl. rewrite Hget. simpl.
  unfold defer, pool_put, Analyze_callback, bind at 1, get_job at 1. simpl.
  destruct (Indexes (w_job w)) as [|first rest] eqn:Hidx.
  - rewrite (getAnalyzeType_table _ Hidx). simpl.
    destruct (analyzeTableM_run sctx sh tr
                (mkWorld (w_job w) true x1 (w_trace w)))
      as (ok & w1 & Hr & J & S & T).
    unfold bind. rewrite Hr. simpl.
    match goal with |- context [Analyze_deferred ?w0] =>
      destruct (Analyze_deferred_run w0) as (w' & Hd & S' & T') end.
    rewrite Hd. simpl in S', T', J. rewrite J in T'.
    exists ok, w1, w'. auto.
  - assert (Hne : Indexes (w_job w) <> []) by (rewrite Hidx; discriminate).
    rewrite (getAnalyzeType_index _ Hne). simpl.
    destruct (analyzeIndexes_run sctx sh tr
                (mkWorld (w_job w) true x1 (w_trace w)))
      as (ok & evs & w1 & Hr & (J & S & T) & _).
    unfold bind. rewrite Hr. simpl.
    match goal with |- context [Analyze_deferred ?w0] =>
      destruct (Analyze_deferred_run w0) as (w' & Hd & S' & T') end.
    rewrite Hd. simpl in S', T', J. rewrite J in T'.
    exists ok, w1, w'. auto.
Qed.

(** The log of [Analyze] extends the log it started from. *)
Lemma Analyze_trace (sh : StatsHandle) (tr : Tracker) (w : World) :
  exists (r : error) (evs : list Event) (w' : World),
    Analyze sh tr w = (Ok r, w') /\
    w_trace w' = w_trace w ++ evs /\
    hooks_fired evs = registered (selected_hook (local_success w') (w_job w)).
Proof.
  destruct (pool_Get (SPool sh) (w_ext w)) as [[err|sctx] x1] eqn:Hget.
  - unfold Analyze, bind at 1, set_success, defer at 1, CallWithSCtx,
      bind at 1, pool_get. simpl. rewrite Hget. simpl.
    match goal with |- context [Analyze_deferred ?w0] =>
      destruct (Analyze_deferred_run w0) as (w' & Hd & S & T) end.
    rewrite Hd. simpl in S, T.
    exists (Some err); eexists; exists w'.
    split; [reflexivity|]. split; [exact T|].
    now rewrite hooks_fired_hook_events, S.
  - destruct (Analyze_session_run sh tr w sctx x1 Hget)
      as (ok & w1 & w' & Hb & Hr & S & T).
    assert (Hw1 : exists evs, w_trace w1 = w_trace w ++ evs /\
                              hooks_fired evs = []).
    { destruct (Indexes (w_job w)).
      - destruct (analyzeTableM_run sctx sh tr
                    (mkWorld (w_job w) true x1 (w_trace w)))
          as (ok' & w1' & Hr' & _ & _ & T').
        rewrite Hr' in Hb. injection Hb as _ <-.
        eexists. split; [exact T' | reflexivity].
      - destruct (analyzeIndexes_run sctx sh tr
                    (mkWorld (w_job w) true x1 (w_trace w)))
          as (ok' & evs & w1' & Hr' & (_ & _ & T') & _ & Hh).
        rewrite Hr' in Hb. injection Hb as _ <-.
        exists evs. split; [exact T' | exact Hh]. }
    destruct Hw1 as (evs & T1 & Hh).
    exists None; eexists; exists w'. split; [exact Hr|].
    split; [rewrite T, T1, <- app_assoc; reflexivity|].
    now rewrite hooks_fired_app, Hh, hooks_fired_hook_events, S.
Qed.

(** X1: a job without newly added indexes that obtains a session runs
    exactly one statement, the analyze-table statement of its schema and
    table at its statistics version, on the state the pool left; [Analyze]
    returns nil, the flag is the executor's answer, and the hook that the
    answer selects is called after the statement. *)
Theorem Analyze_table_job_runs_one_table_statement
    (sh : StatsHandle) (tr : Tracker) (w : World) (sctx : SessionCtx)
    (x1 : Ext) :
  Indexes (w_job w) = [] ->
  pool_Get (SPool sh) (w_ext w) = (inr sctx, x1) ->
  exists (ok : bool) (w' : World),
    Analyze sh tr w = (Ok None, w') /\
    ok = fst (exec_AutoAnalyze sctx sh tr (TableStatsVer (w_job w))
                "analyze table %n.%n"
                [TableSchema (w_job w); TableName (w_job w)] x1) /\
    local_success w' = ok /\
    events_since w w' =
      table_event (w_job w) ok ::
      map EvHook (registered (selected_hook ok (w_job w))).
Proof.
  intros Hidx Hget.
  destruct (Analyze_session_run sh tr w sctx x1 Hget)
    as (ok & w1 & w' & Hb & Hr & S & T).
  rewrite Hidx in Hb.
  destruct (analyzeTableM_answer sctx sh tr
              (mkWorld (w_job w) true x1 (w_trace w)))
    as (ok' & w1' & Hr' & Hok & (_ & _ & T1)).
  rewrite Hr' in Hb. injection Hb as <- <-. simpl in Hok, T1.
  exists ok', w'. split; [exact Hr|]. split; [exact Hok|]. split; [exact S|].
  apply events_since_app. rewrite T, T1, <- app_assoc. reflexivity.
Qed.

(** X2: a job with newly added indexes that obtains a session runs
    analyze-index statements only: the statements of a prefix of its index
    list that is not empty, in list order, and never the analyze-table
    statement.  With a session whose analyze version is not 1 the prefix is
    one index; with version 1, a run that leaves the flag true has covered
    the whole list. *)
Theorem Analyze_index_job_runs_only_index_statements
    (sh : StatsHandle) (tr : Tracker) (w : World) (sctx : SessionCtx)
    (x1 : Ext) :
  Indexes (w_job w) <> [] ->
  pool_Get (SPool sh) (w_ext w) = (inr sctx, x1) ->
  exists (attempted skipped : list string) (w' : World),
    Analyze sh tr w = (Ok None, w') /\
    Indexes (w_job w) = attempted ++ skipped /\
    attempted <> [] /\
    statements (events_since w w') =
      map (GenSQLForAnalyzeIndex (w_job w)) attempted /\
    (AnalyzeVersion sctx x1 <> 1%Z -> length attempted = 1) /\
    (AnalyzeVersion sctx x1 = 1%Z -> local_success w' = true -> skipped = []).
Proof.
  intros Hne Hget.
  destruct (Analyze_session_run sh tr w sctx x1 Hget)
    as (ok & w1 & w' & Hb & Hr & S & T).
  destruct (analyzeIndexes_prefix sctx sh tr
              (mkWorld (w_job w) true x1 (w_trace w)) Hne)
    as (ok' & passed & failed & skipped & w1' & Hr' & Hl & (_ & _ & T1)
        & Ht & Hf & Hatt & Hv1 & Hvo).
  simpl in Hl, T1, Hv1, Hvo.
  destruct (Indexes (w_job w)) as [|first rest] eqn:Hidx; [contradiction|].
  rewrite Hr' in Hb. injection Hb as <- <-.
  exists (passed ++ failed), skipped, w'.
  split; [exact Hr|]. split; [now rewrite <- app_assoc|].
  split; [exact Hatt|]. split.
  - assert (He : events_since w w' =
                 (map (index_event (w_job w) true) passed ++
                  map (index_event (w_job w) false) failed) ++
                 map EvHook (registered (selected_hook ok' (w_job w))))
      by (apply events_since_app; rewrite T, T1, <- app_assoc; reflexivity).
    rewrite He, !statements_app, !statements_index_events,
      statements_hook_events, app_nil_r, map_app. reflexivity.
  - split; [exact Hvo|]. intros Hv Hs. rewrite S in Hs. now apply Hv1.
Qed.

(** X3: when the pool hands out no session, [Analyze] returns the pool's
    error and runs no statement; the flag is still true at exit, so the
    success hook, if one is registered, is called once on the job and on the
    state the pool left, and the failure hook is not called. *)
Theorem Analyze_without_session_fires_success_hook
    (sh : StatsHandle) (tr : Tracker) (w : World) (err : string) (x1 : Ext) :
  pool_Get (SPool sh) (w_ext w) = (inl err, x1) ->
  exists w' : World,
    Analyze sh tr w = (Ok (Some err), w') /\
    local_success w' = true /\
    events_since w w' = map EvHook (registered (successHook (w_job w))) /\
    (w_job w', w_ext w') =
      match successHook (w_job w) with
      | Some h => hook_code h (w_job w) x1
      | None => (w_job w, x1)
      end.
Proof.
  intros Hget.
  unfold Analyze, bind at 1, set_success, defer at 1, CallWithSCtx,
    bind at 1, pool_get. simpl. rewrite Hget. simpl.
  unfold Analyze_deferred, bind, get_success, get_job. simpl.
  destruct (successHook (w_job w)) as [h|]; simpl.
  - destruct (hook_code h (w_job w) x1) as [j' x'].
    eexists. split; [reflexivity|]. simpl. split; [reflexivity|].
    split; [now apply events_since_app | reflexivity].
  - eexists. split; [reflexivity|]. simpl. split; [reflexivity|].
    split; [apply events_since_app; simpl; now rewrite app_nil_r | reflexivity].
Qed.

(** X4: the version 1 loop is the only branch that visits more than one
    index.  For every other analyze version of the session, 0 and the
    negative ones included, a non-empty index list gets exactly one
    statement, the one of its first index, and the outcome is the
    executor's answer to it. *)
Theorem analyzeIndexes_every_other_version_first_index_only
    (sctx : SessionCtx) (sh : StatsHandle) (tr : Tracker) (w : World)
    (first : string) (rest : list string) :
  Indexes (w_job w) = first :: rest ->
  AnalyzeVersion sctx (w_ext w) <> 1%Z ->
  exists (ok : bool) (w' : World),
    analyzeIndexes sctx sh tr w = (Ok ok, w') /\
    ok = fst (exec_AutoAnalyze sctx sh tr (TableStatsVer (w_job w))
                "analyze table %n.%n index %n"
                [TableSchema (w_job w); TableName (w_job w); first]
                (w_ext w)) /\
    events_since w w' = [index_event (w_job w) ok first].
Proof.
  intros Hidx Hver.
  destruct (AutoAnalyze_run sctx sh tr (TableStatsVer (w_job w))
              "analyze table %n.%n index %n"
              [TableSchema (w_job w); TableName (w_job w); first] w)
    as (ok & w' & Hr & Hok & (_ & _ & T)).
  exists ok, w'. split; [|split; [exact Hok | now apply events_since_app]].
  unfold analyzeIndexes, bind, get_job, get_AnalyzeVersion.
  rewrite len_is_zero, Hidx. cbv beta iota.
  destruct (Z.eqb_spec (AnalyzeVersion sctx (w_ext w)) 1) as [E|_];
    [contradiction | exact Hr].
Qed.

(** X5: the hooks are not one-shot.  When the eligibility check rejects a
    job that has a failure hook, and that hook leaves the job as it is, a
    call of [Analyze] after [IsValidToAnalyze] still runs and fires a hook
    of its own: the failure hook has been called once before the hook that
    [Analyze] selects, and twice in all when the analysis fails. *)
Theorem Analyze_after_rejection_fires_again
    (sctx : SessionCtx) (sh : StatsHandle) (tr : Tracker) (w : World)
    (reason : string) (x1 x2 : Ext) (f : HookRef) :
  isValidToAnalyze sctx (TableSchema (w_job w)) (TableName (w_job w)) (w_ext w)
    = ((false, reason), x1) ->
  failureHook (w_job w) = Some f ->
  hook_code f (w_job w) x1 = (w_job w, x2) ->
  exists (r : error) (w' : World),
    bind (IsValidToAnalyze sctx) (fun _ => Analyze sh tr) w = (Ok r, w') /\
    hooks_fired (events_since w w') =
      f :: registered (selected_hook (local_success w') (w_job w)) /\
    (local_success w' = false -> hooks_fired (events_since w w') = [f; f]).
Proof.
  intros Ho Hf Hh.
  destruct (IsValidToAnalyze_run sctx w) as (w1 & Hv & T1 & JX).
  rewrite Ho in Hv, T1, JX. simpl in Hv, T1, JX.
  rewrite Hf in T1, JX. rewrite Hh in JX. injection JX as J1 _.
  destruct (Analyze_trace sh tr w1) as (r & evs & w' & Hr & T & Hhooks).
  rewrite J1 in Hhooks.
  exists r, w'. unfold bind. rewrite Hv.
  split; [exact Hr|].
  assert (He : events_since w w' = EvHook f :: evs)
    by (apply events_since_app; rewrite T, T1, <- app_assoc; reflexivity).
  rewrite He. change (EvHook f :: evs) with ([EvHook f] ++ evs).
  rewrite hooks_fired_app, Hhooks. simpl.
  split; [reflexivity|]. intros ->. simpl. now rewrite Hf.
Qed.

(** X6: [Analyze] fires what was registered last.  Registering a success
    hook again replaces the earlier one, registering a failure hook does not
    disturb the success hook, and registering nil unregisters: the call that
    [Analyze] makes is the latest success registration when the flag is
    true at exit and the latest failure registration otherwise. *)
Theorem Analyze_fires_the_latest_registration
    (sh : StatsHandle) (tr : Tracker) (w : World) (j0 : Job)
    (s1 s2 f : JobHook) :
  w_job w =
    RegisterSuccessHook s2 (RegisterFailureHook f (RegisterSuccessHook s1 j0)) ->
  exists (r : error) (w' : World),
    Analyze sh tr w = (Ok r, w') /\
    hooks_fired (events_since w w') =
      registered (if local_success w' then s2 else f) /\
    getAnalyzeType (w_job w) = getAnalyzeType j0.
Proof.
  intros Hj.
  destruct (Analyze_hooks sh tr w) as (w' & Hr & _ & Hh).
  exists (acquisition_error sh w), w'. split; [exact Hr|].
  rewrite Hh, Hj. unfold selected_hook. simpl. auto.
Qed.

End Protocol.

(** * Further properties of the pure methods *)

(** X7: the setters write one field each.  [GetWeight] after [SetWeight x]
    is [x], a second [SetWeight] overrides the first, [SetWeight] and
    [SetIndicators] commute and do not show in each other's getter, and
    neither setter changes the table identifier, the analyze type or the
    generated statements; a job fresh from the constructor has the
    identifier it was given. *)
Theorem setters_write_one_field
    (j : Job) (x x' : float64) (v : Indicators) (idx : string)
    (schema tableName : string) (tableID : Z) (indexes : list string)
    (tableStatsVer : Z) (changePercentage tableSize : float64)
    (lastAnalysisDuration : Duration) :
  GetWeight (SetWeight x j) = x /\
  SetWeight x' (SetWeight x j) = SetWeight x' j /\
  SetWeight x (SetIndicators v j) = SetIndicators v (SetWeight x j) /\
  GetIndicators (SetWeight x j) = GetIndicators j /\
  GetWeight (SetIndicators v j) = GetWeight j /\
  GetTableID (SetWeight x (SetIndicators v j)) = GetTableID j /\
  getAnalyzeType (SetWeight x (SetIndicators v j)) = getAnalyzeType j /\
  GenSQLForAnalyzeTable (SetWeight x (SetIndicators v j)) =
    GenSQLForAnalyzeTable j /\
  GenSQLForAnalyzeIndex (SetWeight x (SetIndicators v j)) idx =
    GenSQLForAnalyzeIndex j idx /\
  GetTableID
    (NewNonPartitionedTableAnalysisJob schema tableName tableID indexes
       tableStatsVer changePercentage tableSize lastAnalysisDuration) = tableID.
Proof. repeat split. Qed.

(** X8: the rendering of a job begins with the heading and the line of
    its analyze type, so a job without newly added indexes and a job with
    some never render alike; and the rendering does not depend on the
    hooks. *)
Theorem JobString_shows_analyze_type_and_ignores_hooks
    (format_f : nat -> float64 -> string)
    (format_duration : Duration -> string) (j j' : Job) (h : JobHook) :
  String.prefix
    ("NonPartitionedTableAnalysisJob:" ++ LF ++ TAB ++ "AnalyzeType: " ++
     getAnalyzeType j ++ LF)%string
    (JobString format_f format_duration j) = true /\
  (Indexes j = [] -> Indexes j' <> [] ->
   JobString format_f format_duration j <>
   JobString format_f format_duration j') /\
  JobString format_f format_duration (RegisterSuccessHook h j) =
    JobString format_f format_duration j /\
  JobString format_f format_duration (RegisterFailureHook h j) =
    JobString format_f format_duration j.
Proof.
  split; [|split; [|split; reflexivity]].
  - unfold JobString, getAnalyzeType, HasNewlyAddedIndex.
    destruct (Indexes j); reflexivity.
  - intros Hj Hj'. unfold JobString.
    rewrite (getAnalyzeType_table j Hj), (getAnalyzeType_index j' Hj').
    simpl. discriminate.
Qed.

(** * The further properties on explicit inputs *)

(** A rejected job that is analyzed all the same: the failure hook is
    called by the validity gate and once more by [Analyze]. *)
Example rejected_then_analyzed :
  let r := bind (IsValidToAnalyze Demo.sctx_v2)
             (fun _ => Analyze Demo.pool_v2 tt)
             (Demo.start Demo.rejected_and_failing) in
  fst r = Ok None /\
  w_trace (snd r) =
    [EvHook 9;
     EvAutoAnalyze 2 "analyze table %n.%n index %n"
       ["test"; "t_failed_recently"; "idx_b"] false;
     EvHook 9].
Proof. split; reflexivity. Qed.

(** Sessions of analyze version 0 take the branch of the later versions. *)
Example version0_attempts_a_only :
  w_trace (snd (analyzeIndexes Demo.sctx_v0 Demo.pool_v0 tt
                  (Demo.start (Demo.job Demo.abc)))) =
    [EvAutoAnalyze 2 "analyze table %n.%n index %n" ["test"; "t"; "idx_a"] true].
Proof. reflexivity. Qed.

(** X1, on a job without indexes and a pool of version 2 sessions. *)
Lemma Analyze_table_job_witness :
  exists (ok : bool) w',
    Analyze Demo.pool_v2 tt (Demo.start (Demo.hooked [])) = (Ok None, w') /\
    ok = fst (exec_AutoAnalyze Demo.sctx_v2 Demo.pool_v2 tt 2%Z
                "analyze table %n.%n" ["test"; "t"] 0) /\
    local_success w' = ok /\
    events_since (Demo.start (Demo.hooked [])) w' =
      table_event (Demo.hooked []) ok ::
      map EvHook (registered (selected_hook ok (Demo.hooked []))).
Proof.
  apply (Analyze_table_job_runs_one_table_statement Demo.pool_v2 tt
           (Demo.start (Demo.hooked [])) Demo.sctx_v2 0); reflexivity.
Defined.

(** X2, on the indexes a, b, c and a pool of version 1 sessions. *)
Lemma Analyze_index_job_witness :
  exists (attempted skipped : list string) w',
    Analyze Demo.pool_v1 tt (Demo.start (Demo.hooked Demo.abc)) = (Ok None, w') /\
    Indexes (Demo.hooked Demo.abc) = attempted ++ skipped /\
    attempted <> [] /\
    statements (events_since (Demo.start (Demo.hooked Demo.abc)) w') =
      map (GenSQLForAnalyzeIndex (Demo.hooked Demo.abc)) attempted /\
    (AnalyzeVersion Demo.sctx_v1 0 <> 1%Z -> length attempted = 1) /\
    (AnalyzeVersion Demo.sctx_v1 0 = 1%Z -> local_success w' = true ->
     skipped = []).
Proof.
  apply (Analyze_index_job_runs_only_index_statements Demo.pool_v1 tt
           (Demo.start (Demo.hooked Demo.abc)) Demo.sctx_v1 0);
    [discriminate | reflexivity].
Defined.

(** X3, on an exhausted pool. *)
Lemma Analyze_without_session_witness :
  exists w',
    Analyze Demo.no_pool tt (Demo.start (Demo.hooked Demo.abc)) =
      (Ok (Some "no session available"), w') /\
    local_success w' = true /\
    events_since (Demo.start (Demo.hooked Demo.abc)) w' = [EvHook 7] /\
    (w_job w', w_ext w') = (Demo.hooked Demo.abc, 7).
Proof.
  apply (Analyze_without_session_fires_success_hook Demo.no_pool tt
           (Demo.start (Demo.hooked Demo.abc)) "no session available" 0).
  reflexivity.
Defined.

(** X4, on the indexes a, b, c and a session of analyze version 0. *)
Lemma analyzeIndexes_version0_witness :
  exists (ok : bool) w',
    analyzeIndexes Demo.sctx_v0 Demo.pool_v0 tt
      (Demo.start (Demo.job Demo.abc)) = (Ok ok, w') /\
    ok = fst (exec_AutoAnalyze Demo.sctx_v0 Demo.pool_v0 tt 2%Z
                "analyze table %n.%n index %n" ["test"; "t"; "idx_a"] 0) /\
    events_since (Demo.start (Demo.job Demo.abc)) w' =
      [index_event (Demo.job Demo.abc) ok "idx_a"].
Proof.
  apply (analyzeIndexes_every_other_version_first_index_only
           Demo.sctx_v0 Demo.pool_v0 tt (Demo.start (Demo.job Demo.abc))
           "idx_a" ["idx_b"; "idx_c"]);
    [reflexivity | discriminate].
Defined.

(** X5, on the rejected job whose analysis fails. *)
Lemma Analyze_after_rejection_witness :
  exists (r : error) w',
    bind (IsValidToAnalyze Demo.sctx_v2) (fun _ => Analyze Demo.pool_v2 tt)
      (Demo.start Demo.rejected_and_failing) = (Ok r, w') /\
    hooks_fired (events_since (Demo.start Demo.rejected_and_failing) w') =
      9 :: registered (selected_hook (local_success w')
                         Demo.rejected_and_failing) /\
    (local_success w' = false ->
     hooks_fired (events_since (Demo.start Demo.rejected_and_failing) w') =
       [9; 9]).
Proof.
  apply (Analyze_after_rejection_fires_again Demo.sctx_v2 Demo.pool_v2 tt
           (Demo.start Demo.rejected_and_failing)
           "last failed analysis is too recent" 0 9 9); reflexivity.
Defined.

(** X6, on a success hook registered twice. *)
Lemma Analyze_fires_the_latest_registration_witness :
  exists (r : error) w',
    Analyze Demo.pool_v2 tt
      (Demo.start (RegisterSuccessHook (Some 7)
                     (RegisterFailureHook (Some 9)
                        (RegisterSuccessHook (Some 1) (Demo.job Demo.abc)))))
      = (Ok r, w') /\
    hooks_fired
      (events_since
         (Demo.start (RegisterSuccessHook (Some 7)
                        (RegisterFailureHook (Some 9)
                           (RegisterSuccessHook (Some 1) (Demo.job Demo.abc)))))
         w') =
      registered (if local_success w' then Some 7 else Some 9) /\
    getAnalyzeType
      (RegisterSuccessHook (Some 7)
         (RegisterFailureHook (Some 9)
            (RegisterSuccessHook (Some 1) (Demo.job Demo.abc)))) =
      getAnalyzeType (Demo.job Demo.abc).
Proof.
  apply (Analyze_fires_the_latest_registration Demo.pool_v2 tt
           (Demo.start (RegisterSuccessHook (Some 7)
                          (RegisterFailureHook (Some 9)
                             (RegisterSuccessHook (Some 1)
                                (Demo.job Demo.abc)))))
           (Demo.job Demo.abc) (Some 1) (Some 7) (Some 9)).
  reflexivity.
Defined.

(** X8, on a job without indexes and a job with the indexes a, b, c. *)
Lemma JobString_witness :
  Indexes (Demo.job []) = [] /\
  JobString Demo.format_f Demo.format_duration (Demo.job []) <>
  JobString Demo.format_f Demo.format_duration (Demo.job Demo.abc).
Proof.
  split; [reflexivity|].
  apply (JobString_shows_analyze_type_and_ignores_hooks
           Demo.format_f Demo.format_duration
           (Demo.job []) (Demo.job Demo.abc) None);
    [reflexivity | discriminate].
Defined.
